(** * Hotel booking form: validation schema, submit handler and context state

    A shallow embedding of [src/components/BookingForm.tsx],
    [src/context/BookingContext.tsx] and [src/services/ApiService.ts].

    - JavaScript strings are [string]s; every character the code inspects
      (the class [[A-Z0-9]]) is ASCII.
    - A [Date] is its time value: the milliseconds since the epoch, a [Z].
      The date pickers hand the form a valid [Date] or [null].
    - In the form values a date that is [null] and a promo code that is
      left out ([undefined]) are [None].
    - The component's handlers are programs of a small state-and-exception
      monad over the React state they touch; the remote service is an
      oracle, and every request made is logged. *)

From Stdlib Require Import ZArith Lia Bool Ascii String List.
From stdpp Require Import base option list strings gmap.

Local Open Scope string_scope.
Local Open Scope Z_scope.

(** ** JavaScript regular expressions, as far as the schema uses them *)

Module Regex.

(** A character class is a union of inclusive ranges: [[A-Z0-9]]. *)
Definition char_class := list (ascii * ascii).

Inductive item :=
| Bol                                         (* ^ *)
| Eol                                         (* $ *)
| Rep (c : char_class) (lo hi : nat).         (* [c]{lo,hi} *)

Definition pattern := list item.

Definition in_range (x : ascii) (r : ascii * ascii) : bool :=
  (nat_of_ascii (fst r) <=? nat_of_ascii x)%nat
  && (nat_of_ascii x <=? nat_of_ascii (snd r))%nat.

Definition in_class (c : char_class) (x : ascii) : bool :=
  existsb (in_range x) c.

(** [rep k c lo room taken st s]: a greedy run of characters of [c] that
    has [taken] so far and may take [room] more, then the rest of the
    pattern, [k]; the run may stop once it has [lo]. *)
Fixpoint rep (k : bool -> list ascii -> bool) (c : char_class) (lo : nat)
  (room taken : nat) (st : bool) (s : list ascii) {struct room} : bool :=
  match room, s with
  | S room', x :: t =>
      (in_class c x && rep k c lo room' (S taken) false t)
      || ((lo <=? taken)%nat && k st s)
  | _, _ => (lo <=? taken)%nat && k st s
  end.

(** [match_here p at_start s]: does [p] match a prefix of [s]?  [at_start]
    says whether [s] begins at index 0 of the subject (no [m] flag, so
    [^] and [$] are the ends of the input only). *)
Fixpoint match_here (p : pattern) (at_start : bool) (s : list ascii)
  {struct p} : bool :=
  match p with
  | [] => true
  | Bol :: p' => at_start && match_here p' at_start s
  | Eol :: p' =>
      match s with [] => match_here p' at_start s | _ :: _ => false end
  | Rep c lo hi :: p' => rep (match_here p') c lo hi 0 at_start s
  end.

(** The candidate start positions, left to right. *)
Fixpoint search_from (p : pattern) (at_start : bool) (i : Z)
  (s : list ascii) : Z :=
  if match_here p at_start s then i
  else match s with
       | [] => -1
       | _ :: t => search_from p false (i + 1) t
       end.

(** [String.prototype.search]: index of the first match, or -1. *)
Definition search (s : string) (p : pattern) : Z :=
  search_from p true 0 (list_ascii_of_string s).

End Regex.

(** [/^[A-Z0-9]{6,10}$/] *)
Definition promo_regex : Regex.pattern :=
  [Regex.Bol;
   Regex.Rep [("A"%char, "Z"%char); ("0"%char, "9"%char)] 6 10;
   Regex.Eol].

(** ** ECMAScript time values and the local calendar fields of a [Date] *)

Module JsDate.

(** The time value of a [Date]: milliseconds since 1970-01-01T00:00Z. *)
Definition t := Z.

Definition msPerDay : Z := 86400000.

Definition Day (tv : Z) : Z := tv / msPerDay.
Definition TimeWithinDay (tv : Z) : Z := tv mod msPerDay.

Definition DaysInYear (y : Z) : Z :=
  if negb (y mod 4 =? 0) then 365
  else if negb (y mod 100 =? 0) then 366
  else if negb (y mod 400 =? 0) then 365
  else 366.

Definition DayFromYear (y : Z) : Z :=
  365 * (y - 1970) + (y - 1969) / 4 - (y - 1901) / 100 + (y - 1601) / 400.

(** The year of a day number: the largest [y] with [DayFromYear y <= d].
    A 400-year cycle has 146097 days, so the quotient below is off by at
    most one year, which the two comparisons repair. *)
Definition YearFromDay (d : Z) : Z :=
  let y := 1970 + (400 * d) / 146097 in
  if d <? DayFromYear y then y - 1
  else if DayFromYear (y + 1) <=? d then y + 1
  else y.

Definition YearFromTime (tv : Z) : Z := YearFromDay (Day tv).

Definition InLeapYear (tv : Z) : Z :=
  if DaysInYear (YearFromTime tv) =? 366 then 1 else 0.

Definition DayWithinYear (tv : Z) : Z :=
  Day tv - DayFromYear (YearFromTime tv).

(** Months are numbered from 0 (January) to 11 (December). *)
Definition MonthFromTime (tv : Z) : Z :=
  let d := DayWithinYear tv in
  let l := InLeapYear tv in
  if d <? 31 then 0
  else if d <? 59 + l then 1
  else if d <? 90 + l then 2
  else if d <? 120 + l then 3
  else if d <? 151 + l then 4
  else if d <? 181 + l then 5
  else if d <? 212 + l then 6
  else if d <? 243 + l then 7
  else if d <? 273 + l then 8
  else if d <? 304 + l then 9
  else if d <? 334 + l then 10
  else 11.

Definition DateFromTime (tv : Z) : Z :=
  let d := DayWithinYear tv in
  let l := InLeapYear tv in
  match MonthFromTime tv with
  | 0 => d + 1
  | 1 => d - 30
  | 2 => d - 58 - l
  | 3 => d - 89 - l
  | 4 => d - 119 - l
  | 5 => d - 150 - l
  | 6 => d - 180 - l
  | 7 => d - 211 - l
  | 8 => d - 242 - l
  | 9 => d - 272 - l
  | 10 => d - 303 - l
  | _ => d - 333 - l
  end.

(** The host's offset of local time from UTC at an instant, in
    milliseconds: ECMAScript leaves it to the implementation. *)
Definition zone := Z -> Z.

Definition LocalTime (tza : zone) (tv : Z) : Z := tv + tza tv.

Definition getFullYear (tza : zone) (d : t) : Z :=
  YearFromTime (LocalTime tza d).
Definition getMonth (tza : zone) (d : t) : Z :=
  MonthFromTime (LocalTime tza d).
Definition getDate (tza : zone) (d : t) : Z :=
  DateFromTime (LocalTime tza d).

Definition utc : zone := fun _ => 0.

End JsDate.

(** ** The values a form field can hold *)

Inductive value :=
| Undefined
| Null
| Str (s : string)
| DateV (d : JsDate.t).

Definition is_absent (v : value) : bool :=
  match v with Undefined | Null => true | _ => false end.

(** [a || b] on an optional string: the empty string is falsy. *)
Definition js_or (a : option string) (b : string) : string :=
  match a with
  | Some s => if String.eqb s "" then b else s
  | None => b
  end.

(** [messages[0]] where [messages.length > 0] has been checked. *)
Definition js_index0 (messages : list string) : string :=
  default "" (messages !! 0%nat).

(** [!s] on a string. *)
Definition js_not (s : string) : bool := String.eqb s "".

(** ** Yup, as far as the schema uses it

    The release of yup the application is built with is not recorded in
    the sources at hand, and the two lines differ in what
    [.required(..).nullable()] makes of [null]: in 0.x [required] is a test
    that [null] fails; in 1.x [required] is [nonNullable().defined()], which
    the later [nullable()] partly undoes.  Everything else used here agrees.
    The schema is therefore read under either release. *)

Module Yup.

Inductive release := Yup0 | Yup1.

Inductive type := TString | TDate.

(** The fields of the object being validated ([this.parent]). *)
Abbreviation object := (gmap string value).

Record test := {
  test_name : string;
  test_message : string;
  (** whether [null] and [undefined] pass without running [test_fn] *)
  skipAbsent : bool;
  test_fn : object -> value -> bool
}.

Record schema := {
  sch_type : type;
  (** 1.x: [spec.nullable], and the message of a [nonNullable] *)
  sch_nullable : bool;
  sch_null_message : string;
  (** 1.x: [spec.optional], and the message of a [defined] *)
  sch_optional : bool;
  sch_undefined_message : string;
  sch_tests : list test
}.

Definition add_test (t : test) (s : schema) : schema :=
  {| sch_type := sch_type s;
     sch_nullable := sch_nullable s;
     sch_null_message := sch_null_message s;
     sch_optional := sch_optional s;
     sch_undefined_message := sch_undefined_message s;
     sch_tests := (sch_tests s ++ [t])%list |}.

(** [yup.string()], [yup.date()]: optional, not nullable, no tests. *)
Definition mixed (ty : type) : schema :=
  {| sch_type := ty;
     sch_nullable := false;
     sch_null_message := "${path} cannot be null";
     sch_optional := true;
     sch_undefined_message := "${path} must be defined";
     sch_tests := [] |}.

Definition string_ : schema := mixed TString.
Definition date : schema := mixed TDate.

Definition nullable (s : schema) : schema :=
  {| sch_type := sch_type s;
     sch_nullable := true;
     sch_null_message := sch_null_message s;
     sch_optional := sch_optional s;
     sch_undefined_message := sch_undefined_message s;
     sch_tests := sch_tests s |}.

Definition optional (s : schema) : schema :=
  {| sch_type := sch_type s;
     sch_nullable := sch_nullable s;
     sch_null_message := sch_null_message s;
     sch_optional := true;
     sch_undefined_message := sch_undefined_message s;
     sch_tests := sch_tests s |}.

Definition nonempty (v : value) : bool :=
  match v with Str s => negb (String.eqb s "") | _ => true end.

(** 0.x [_isPresent]: neither [null] nor [undefined], and for a string
    schema also not the empty string. *)
Definition isPresent (ty : type) (v : value) : bool :=
  negb (is_absent v)
  && match ty with TString => nonempty v | TDate => true end.

Definition required (r : release) (message : string) (s : schema) : schema :=
  match r with
  | Yup0 =>
      add_test {| test_name := "required"; test_message := message;
                  skipAbsent := false;
                  test_fn := fun _ v => isPresent (sch_type s) v |} s
  | Yup1 =>
      let s' :=
        {| sch_type := sch_type s;
           sch_nullable := false;
           sch_null_message := message;
           sch_optional := false;
           sch_undefined_message := message;
           sch_tests := sch_tests s |} in
      match sch_type s with
      | TString =>
          add_test {| test_name := "required"; test_message := message;
                      skipAbsent := true;
                      test_fn := fun _ v => nonempty v |} s'
      | TDate => s'
      end
  end.

(** [value.search(regex) !== -1]; the second argument of [matches] is the
    message alone, so [excludeEmptyString] keeps its default, [false], and
    the empty string is searched like any other. *)
Definition matches (p : Regex.pattern) (message : string) (s : schema)
  : schema :=
  add_test {| test_name := "matches"; test_message := message;
              skipAbsent := true;
              test_fn := fun _ v =>
                match v with
                | Str x => negb (Regex.search x p =? -1)
                | _ => false
                end |} s.

(** [value >= limit] for a [Date] on the left: both sides go to numbers,
    [null] to 0 and [undefined] to NaN. *)
Definition date_ge (v limit : value) : bool :=
  match v, limit with
  | DateV a, DateV b => b <=? a
  | DateV a, Null => 0 <=? a
  | _, _ => false
  end.

(** [.min(yup.ref(key), message)]: the limit is the sibling field. *)
Definition min_ref (key : string) (message : string) (s : schema) : schema :=
  add_test {| test_name := "min"; test_message := message;
              skipAbsent := true;
              test_fn := fun parent v =>
                date_ge v (default Undefined (parent !! key)) |} s.

(** What react-hook-form keeps per field: the failing test and its message. *)
Record FieldError := { error_type : string; error_message : string }.

Definition run_test (parent : object) (v : value) (t : test)
  : option FieldError :=
  if (skipAbsent t && is_absent v) || test_fn t parent v then None
  else Some {| error_type := test_name t; error_message := test_message t |}.

(** The tests that run before the schema's own: 1.x checks nullability
    and optionality there, against the finished schema's [spec].  In 0.x the only such test is the type check,
    which the values of this form (a string for a string field, a [Date]
    or [null] for a nullable date field) always pass. *)
Definition initial_tests (r : release) (s : schema) : list test :=
  match r with
  | Yup0 => []
  | Yup1 =>
      [ {| test_name := "nullable";
           test_message := sch_null_message s;
           skipAbsent := false;
           test_fn := fun _ v =>
             match v with Null => sch_nullable s | _ => true end |};
        {| test_name := "optionality";
           test_message := sch_undefined_message s;
           skipAbsent := false;
           test_fn := fun _ v =>
             match v with Undefined => sch_optional s | _ => true end |} ]
  end.

(** Every failure of one field, in the order yup reports them: the
    schema's own tests run only when the initial ones all pass. *)
Definition field_errors (r : release) (s : schema) (parent : object)
  (v : value) : list FieldError :=
  match omap (run_test parent v) (initial_tests r s) with
  | [] => omap (run_test parent v) (sch_tests s)
  | errs => errs
  end.

(** The resolver keeps the first error of each path. *)
Definition validate_field (r : release) (s : schema) (parent : object)
  (v : value) : option FieldError :=
  head (field_errors r s parent v).

(** [yup.object().shape(..)]: the fields in the order they are written. *)
Definition shape := list (string * schema).

(** [yupResolver(schema)]'s errors object for the values [o]. *)
Definition resolver_errors (r : release) (sh : shape) (o : object)
  : gmap string FieldError :=
  list_to_map
    (omap (fun '(key, s) =>
             pair key <$> validate_field r s o (default Undefined (o !! key)))
          sh).

End Yup.

(** ** The booking form: [BookingContext.tsx] and the schema *)

Record Room := {
  id : string;
  name : string;
  price : Z;
  description : string
}.

(** [BookingFormData] and [BookingFormValues] are the same five fields;
    [promo_code?] is [None] when the key is left out. *)
Record BookingFormData := {
  guest_name : string;
  room_id : string;
  check_in_date : option JsDate.t;
  check_out_date : option JsDate.t;
  promo_code : option string
}.

Definition initialFormData : BookingFormData :=
  {| guest_name := "";
     room_id := "";
     check_in_date := None;
     check_out_date := None;
     promo_code := Some "" |}.

Section Schema.

Variable yup : Yup.release.

Definition schema : Yup.shape :=
  [ ("guest_name",
      Yup.required yup "Guest name is required" Yup.string_);
    ("room_id",
      Yup.required yup "Please select a room" Yup.string_);
    ("check_in_date",
      Yup.nullable (Yup.required yup "Check-in date is required" Yup.date));
    ("check_out_date",
      Yup.nullable
        (Yup.required yup "Check-out date is required"
           (Yup.min_ref "check_in_date"
              "Check-out date must be after check-in date" Yup.date)));
    ("promo_code",
      Yup.matches promo_regex
        "Promo code must be uppercase alphanumeric and between 6-10 characters"
        (Yup.optional Yup.string_)) ].

End Schema.

Definition date_value (d : option JsDate.t) : value :=
  match d with Some tv => DateV tv | None => Null end.

(** The form values as the object handed to the resolver. *)
Definition form_object (data : BookingFormData) : Yup.object :=
  let o : Yup.object :=
    {[ "guest_name" := Str (guest_name data);
       "room_id" := Str (room_id data);
       "check_in_date" := date_value (check_in_date data);
       "check_out_date" := date_value (check_out_date data) ]} in
  match promo_code data with
  | Some p => <["promo_code" := Str p]> o
  | None => o
  end.

(** The own keys of the values object, and the properties every object
    inherits from [Object.prototype]: [key in data] sees both. *)
Definition own_keys (data : BookingFormData) : list string :=
  (["guest_name"; "room_id"; "check_in_date"; "check_out_date"]
   ++ match promo_code data with Some _ => ["promo_code"] | None => [] end)%list.

Definition object_prototype_keys : list string :=
  ["constructor"; "hasOwnProperty"; "isPrototypeOf"; "propertyIsEnumerable";
   "toLocaleString"; "toString"; "valueOf"; "__proto__";
   "__defineGetter__"; "__defineSetter__"; "__lookupGetter__";
   "__lookupSetter__"].

Definition js_in (key : string) (data : BookingFormData) : bool :=
  bool_decide (key ∈ (own_keys data ++ object_prototype_keys)%list).

Definition validate (yup : Yup.release) (data : BookingFormData)
  : gmap string Yup.FieldError :=
  Yup.resolver_errors yup (schema yup) (form_object data).

(** *** The context: [BookingProvider]'s seven [useState] cells *)

Record BookingState := {
  rooms : list Room;
  selectedRoom : option Room;
  bookingData : BookingFormData;
  unavailableDates : list JsDate.t;
  isLoading : bool;
  error : option string;
  success : option string
}.

(** The initial value of each [useState]. *)
Definition initialState : BookingState :=
  {| rooms := [];
     selectedRoom := None;
     bookingData := initialFormData;
     unavailableDates := [];
     isLoading := false;
     error := None;
     success := None |}.

(** What a key of the context value holds. *)
Inductive entry_kind := StateCell | Setter.

(** The object [BookingProvider] passes as the context value, key by key. *)
Definition context_value : list (string * entry_kind) :=
  [ ("rooms", StateCell);
    ("selectedRoom", StateCell);
    ("bookingData", StateCell);
    ("unavailableDates", StateCell);
    ("isLoading", StateCell);
    ("error", StateCell);
    ("success", StateCell);
    ("setRooms", Setter);
    ("setSelectedRoom", Setter);
    ("setBookingData", Setter);
    ("setUnavailableDates", Setter);
    ("setIsLoading", Setter);
    ("setError", Setter);
    ("setSuccess", Setter) ].

Definition is_state_cell (e : string * entry_kind) : bool :=
  match snd e with StateCell => true | Setter => false end.

Definition state_keys : list string :=
  fst <$> List.filter is_state_cell context_value.

(** [{ ...prev, ...data }]: every key [data] has replaces the one of
    [prev]; a key [data] lacks is kept. *)
Definition merge (prev data : BookingFormData) : BookingFormData :=
  {| guest_name := guest_name data;
     room_id := room_id data;
     check_in_date := check_in_date data;
     check_out_date := check_out_date data;
     promo_code := match promo_code data with
                   | Some p => Some p
                   | None => promo_code prev
                   end |}.

(** *** The remote service *)

Module Axios.

(** [err.response.data]: the body of a failed request. *)
Record ResponseData := {
  message : option string;
  errors : option (list (string * list string))
}.

Record Response := { data : option ResponseData }.

(** What a rejected request throws. *)
Record Error := { response : option Response }.

(** [err.response?.data] *)
Definition response_data (err : Error) : option ResponseData :=
  r ← response err; data r.

End Axios.

Inductive Request :=
| GET (url : string)
| POST (url : string) (body : BookingFormData).

Inductive Reply (A : Type) :=
| Resolved (a : A)
| Rejected (err : Axios.Error).
Arguments Resolved {A} a.
Arguments Rejected {A} err.

(** How the server answers.  The unavailable dates come as strings that
    [getUnavailableDates] reads with [new Date]; the oracle gives the
    time values read. *)
Record Service := {
  unavailable_dates_reply : string -> Reply (list JsDate.t);
  booking_reply : BookingFormData -> Reply unit
}.

(** *** The component's state and its handlers *)

Record World := {
  context : BookingState;
  (** [useState<ApiFieldErrors>({})], in [Object.entries] order *)
  apiFieldErrors : list (string * list string);
  (** react-hook-form's [formState.errors] *)
  formErrors : gmap string Yup.FieldError;
  (** every request sent so far, oldest first *)
  requests : list Request
}.

Inductive result (A : Type) :=
| Ok (a : A)
| Throw (err : Axios.Error).
Arguments Ok {A} a.
Arguments Throw {A} err.

Definition M (A : Type) : Type := World -> result A * World.

#[global] Instance M_ret : MRet M := fun A a w => (Ok a, w).

#[global] Instance M_bind : MBind M := fun A B f m w =>
  match m w with
  | (Ok a, w') => f a w'
  | (Throw e, w') => (Throw e, w')
  end.

(** [try { body } catch (err) { handler } finally { fin }] *)
Definition try_catch_finally {A} (body : M A) (handler : Axios.Error -> M A)
  (fin : M unit) : M A := fun w =>
  let (r, w1) := body w in
  let (r', w2) := match r with
                  | Ok a => (Ok a, w1)
                  | Throw e => handler e w1
                  end in
  match fin w2 with
  | (Ok _, w3) => (r', w3)
  | (Throw e, w3) => (Throw e, w3)
  end.

Notation "'TRY' body 'CATCH' handler 'FINALLY' fin" :=
  (try_catch_finally body handler fin)
  (at level 10, body at level 9, handler at level 9, fin at level 9,
   only parsing).

Fixpoint forEach {A} (f : A -> M unit) (l : list A) : M unit :=
  match l with
  | [] => mret tt
  | x :: l' => f x ;; forEach f l'
  end.

Definition modify (f : World -> World) : M unit := fun w => (Ok tt, f w).

Definition with_context (f : BookingState -> BookingState) : M unit :=
  modify (fun w =>
    {| context := f (context w);
       apiFieldErrors := apiFieldErrors w;
       formErrors := formErrors w;
       requests := requests w |}).

Definition setSelectedRoom (room : option Room) : M unit :=
  with_context (fun c =>
    {| rooms := rooms c; selectedRoom := room;
       bookingData := bookingData c; unavailableDates := unavailableDates c;
       isLoading := isLoading c; error := error c; success := success c |}).

Definition setBookingData (d : BookingFormData) : M unit :=
  with_context (fun c =>
    {| rooms := rooms c; selectedRoom := selectedRoom c;
       bookingData := merge (bookingData c) d;
       unavailableDates := unavailableDates c;
       isLoading := isLoading c; error := error c; success := success c |}).

Definition setUnavailableDates (dates : list JsDate.t) : M unit :=
  with_context (fun c =>
    {| rooms := rooms c; selectedRoom := selectedRoom c;
       bookingData := bookingData c; unavailableDates := dates;
       isLoading := isLoading c; error := error c; success := success c |}).

Definition setIsLoading (b : bool) : M unit :=
  with_context (fun c =>
    {| rooms := rooms c; selectedRoom := selectedRoom c;
       bookingData := bookingData c; unavailableDates := unavailableDates c;
       isLoading := b; error := error c; success := success c |}).

Definition setError (e : option string) : M unit :=
  with_context (fun c =>
    {| rooms := rooms c; selectedRoom := selectedRoom c;
       bookingData := bookingData c; unavailableDates := unavailableDates c;
       isLoading := isLoading c; error := e; success := success c |}).

Definition setSuccess (s : option string) : M unit :=
  with_context (fun c =>
    {| rooms := rooms c; selectedRoom := selectedRoom c;
       bookingData := bookingData c; unavailableDates := unavailableDates c;
       isLoading := isLoading c; error := error c; success := s |}).

Definition setApiFieldErrors (errs : list (string * list string)) : M unit :=
  modify (fun w =>
    {| context := context w;
       apiFieldErrors := errs;
       formErrors := formErrors w;
       requests := requests w |}).

(** react-hook-form's [setError(field, { type, message })]. *)
Definition setFormError (field : string) (e : Yup.FieldError) : M unit :=
  modify (fun w =>
    {| context := context w;
       apiFieldErrors := apiFieldErrors w;
       formErrors := <[field := e]> (formErrors w);
       requests := requests w |}).

Definition setFormErrors (errs : gmap string Yup.FieldError) : M unit :=
  modify (fun w =>
    {| context := context w;
       apiFieldErrors := apiFieldErrors w;
       formErrors := errs;
       requests := requests w |}).

(** Send a request: log it, then resolve or throw as the server answers. *)
Definition send {A} (rq : Request) (reply : Reply A) : M A := fun w =>
  let w' := {| context := context w;
               apiFieldErrors := apiFieldErrors w;
               formErrors := formErrors w;
               requests := (requests w ++ [rq])%list |} in
  match reply with
  | Resolved a => (Ok a, w')
  | Rejected e => (Throw e, w')
  end.

Section Component.

Variable yup : Yup.release.
Variable service : Service.
Variable tza : JsDate.zone.

(** [ApiService]: each method rethrows what its request throws. *)
Definition getUnavailableDates (roomId : string) : M (list JsDate.t) :=
  send (GET ("/api/rooms/" +:+ roomId +:+ "/unavailable-dates"))
       (unavailable_dates_reply service roomId).

Definition createBooking (data : BookingFormData) : M unit :=
  send (POST "/api/bookings" data) (booking_reply service data).

(** The effect on [selectedroom_id] and [rooms], both as the render that
    scheduled it saw them. *)
Definition fetchUnavailableDates_effect (selectedroom_id : string)
  (rooms : list Room) : M unit :=
  if js_not selectedroom_id then mret tt
  else
    TRY
      (setIsLoading true ;;
       setError None ;;
       dates ← getUnavailableDates selectedroom_id;
       setUnavailableDates dates ;;
       let room := find (fun room => String.eqb (id room) selectedroom_id)
                        rooms in
       setSelectedRoom room)
    CATCH (fun _ =>
       setError (Some "Failed to load availability. Please try again."))
    FINALLY (setIsLoading false).

(** The callback of [Object.entries(apiErrors).forEach] in [onSubmit]. *)
Definition report_field_error (data : BookingFormData)
  (entry : string * list string) : M unit :=
  let '(field, messages) := entry in
  if js_in field data && (0 <? length messages)%nat then
    setFormError field
      {| Yup.error_type := "manual";
         Yup.error_message := js_index0 messages |}
  else mret tt.

Definition onSubmit (data : BookingFormData) : M unit :=
  TRY
    (setIsLoading true ;;
     setError None ;;
     setSuccess None ;;
     setApiFieldErrors [] ;;
     createBooking data ;;
     setSuccess (Some "Booking created successfully!") ;;
     setBookingData data)
  CATCH (fun err =>
     match Axios.response_data err ≫= Axios.errors with
     | Some apiErrors =>
         setApiFieldErrors apiErrors ;;
         setError
           (Some (js_or (Axios.response_data err ≫= Axios.message)
                        "Validation failed")) ;;
         forEach (report_field_error data) apiErrors
     | None =>
         setError
           (Some (js_or (Axios.response_data err ≫= Axios.message)
                        "Failed to create booking. Please try again."))
     end)
  FINALLY (setIsLoading false).

(** react-hook-form's [handleSubmit(onSubmit)]: the resolver's errors
    become the form's errors, and [onSubmit] runs only when there are
    none. *)
Definition handleSubmit (values : BookingFormData) : M unit :=
  let errs := validate yup values in
  setFormErrors errs ;;
  if bool_decide (errs = ∅) then onSubmit values else mret tt.

Definition isDateUnavailable (unavailableDates : list JsDate.t)
  (date : JsDate.t) : bool :=
  existsb (fun unavailableDate =>
             (JsDate.getFullYear tza unavailableDate
                =? JsDate.getFullYear tza date)
             && (JsDate.getMonth tza unavailableDate
                   =? JsDate.getMonth tza date)
             && (JsDate.getDate tza unavailableDate
                   =? JsDate.getDate tza date))
          unavailableDates.

End Component.

Definition initialWorld : World :=
  {| context := initialState;
     apiFieldErrors := [];
     formErrors := ∅;
     requests := [] |}.

(** ** Character sets, for stating what the promo code test accepts *)

Definition is_upper (x : ascii) : bool :=
  (65 <=? nat_of_ascii x)%nat && (nat_of_ascii x <=? 90)%nat.

Definition is_lower (x : ascii) : bool :=
  (97 <=? nat_of_ascii x)%nat && (nat_of_ascii x <=? 122)%nat.

Definition is_digit (x : ascii) : bool :=
  (48 <=? nat_of_ascii x)%nat && (nat_of_ascii x <=? 57)%nat.

Definition upper_or_digit (x : ascii) : bool := is_upper x || is_digit x.

(** Letters of either case and digits. *)
Definition alphanumeric (x : ascii) : bool :=
  is_upper x || is_lower x || is_digit x.

(** The reading of the promo code rule as one fixed length [n] of
    alphanumeric characters. *)
Definition fixed_length_alphanumeric (n : nat) (s : string) : Prop :=
  String.length s = n /\ forallb alphanumeric (list_ascii_of_string s) = true.

(** What [/^[A-Z0-9]{6,10}$/] accepts. *)
Definition upper_alnum_6_to_10 (s : string) : Prop :=
  (6 <= String.length s <= 10)%nat
  /\ forallb upper_or_digit (list_ascii_of_string s) = true.

(** The error the resolver reports for one field, if any. *)
Definition field_error (yup : Yup.release) (data : BookingFormData)
  (field : string) : option Yup.FieldError :=
  validate yup data !! field.

(** The schema a shape gives a key. *)
Fixpoint shape_field (key : string) (sh : Yup.shape) : option Yup.schema :=
  match sh with
  | [] => None
  | (k, s) :: sh' => if String.eqb k key then Some s else shape_field key sh'
  end.

(** The form errors after the [forEach] of [onSubmit]'s handler has gone
    through [apiErrors], as a fold. *)
Definition manual_errors (data : BookingFormData)
  (apiErrors : list (string * list string))
  (errs : gmap string Yup.FieldError) : gmap string Yup.FieldError :=
  foldl (fun errs '(field, messages) =>
           if js_in field data && (0 <? length messages)%nat then
             <[field := {| Yup.error_type := "manual";
                           Yup.error_message := js_index0 messages |}]> errs
           else errs)
        errs apiErrors.

(** The general message shown for a rejected booking. *)
Definition rejection_message (err : Axios.Error) : string :=
  match Axios.response_data err ≫= Axios.errors with
  | Some _ =>
      js_or (Axios.response_data err ≫= Axios.message) "Validation failed"
  | None =>
      js_or (Axios.response_data err ≫= Axios.message)
            "Failed to create booking. Please try again."
  end.

(** The seven cells as a tuple, and back. *)
Definition state_tuple (s : BookingState) :=
  (rooms s, selectedRoom s, bookingData s, unavailableDates s,
   isLoading s, error s, success s).

Definition state_of_tuple
  (t : list Room * option Room * BookingFormData * list JsDate.t
       * bool * option string * option string) : BookingState :=
  let '(r, sr, bd, ud, l, e, su) := t in
  {| rooms := r; selectedRoom := sr; bookingData := bd;
     unavailableDates := ud; isLoading := l; error := e; success := su |}.

(** A form that is complete but for its promo code, left empty: the
    2nd and 3rd of November 2025, midnight UTC. *)
Definition empty_promo_form : BookingFormData :=
  {| guest_name := "Jo";
     room_id := "1";
     check_in_date := Some 1762041600000;
     check_out_date := Some 1762128000000;
     promo_code := Some "" |}.

(** The general message of a structured rejection read as: the response's
    message, and the default only when there is none. *)
Definition message_unless_absent (m : option string) (dflt : string) : string :=
  default dflt m.

(** A rejection whose body carries field errors and an empty message. *)
Definition empty_message_error : Axios.Error :=
  {| Axios.response :=
       Some {| Axios.data :=
                 Some {| Axios.message := Some "";
                         Axios.errors :=
                           Some [("guest_name", ["Guest name is too short"])]
                      |} |} |}.

(** The rejection of the component's test: two fields in error. *)
Definition validation_failed_body : Axios.ResponseData :=
  {| Axios.message := Some "Validation failed";
     Axios.errors :=
       Some [("guest_name", ["Guest name is too short"]);
             ("check_in_date", ["Invalid check-in date"])] |}.

Definition validation_failed_error : Axios.Error :=
  {| Axios.response := Some {| Axios.data := Some validation_failed_body |} |}.

(** A form that passes the schema, with a promo code. *)
Definition summer_form : BookingFormData :=
  {| guest_name := "John Doe";
     room_id := "1";
     check_in_date := Some 1762041600000;
     check_out_date := Some 1762128000000;
     promo_code := Some "SUMMER123" |}.

(** A stay on the first two days of 2020. *)
Definition past_form : BookingFormData :=
  {| guest_name := "John Doe";
     room_id := "1";
     check_in_date := Some 1577836800000;
     check_out_date := Some 1577923200000;
     promo_code := None |}.

Definition standard_room : Room :=
  {| id := "1"; name := "Room 101 (Standard)"; price := 100;
     description := "A comfortable standard room" |}.

Definition deluxe_room : Room :=
  {| id := "2"; name := "Room 202 (Deluxe)"; price := 200;
     description := "A comfortable deluxe room" |}.

(** A server that accepts every booking; room 2 is taken on the 4th of
    November 2025. *)
Definition accepting : Service :=
  {| unavailable_dates_reply := fun r =>
       if String.eqb r "2" then Resolved [1762214400000] else Resolved [];
     booking_reply := fun _ => Resolved tt |}.

(** A server that rejects every booking with [err]. *)
Definition rejecting (err : Axios.Error) : Service :=
  {| unavailable_dates_reply := fun _ => Resolved [];
     booking_reply := fun _ => Rejected err |}.

(** [minDate={new Date()}] of the check-in picker, rendered at [now]. *)
Definition check_in_minDate (now : JsDate.t) : JsDate.t := now.

(** ** The rest of the component *)




(** [apiFieldErrors[fieldName]] for a key that is the object's own. *)
Fixpoint api_lookup (key : string) (errs : list (string * list string))
  : option (list string) :=
  match errs with
  | [] => None
  | (k, messages) :: errs' =>
      if String.eqb k key then Some messages else api_lookup key errs'
  end.

(** [getFieldErrorMessage]: the form's own error first, then the server's.
    [None] stands for both [null] and [undefined].  Both objects inherit
    from [Object.prototype]: for one of its property names that is not an
    own key, [errors[fieldName]] is the inherited value, which is truthy and
    has no [message]. *)
Definition getFieldErrorMessage (w : World) (fieldName : string)
  : option string :=
  match formErrors w !! fieldName with
  | Some e => Some (Yup.error_message e)
  | None =>
      if bool_decide (fieldName ∈ object_prototype_keys) then None
      else
        match api_lookup fieldName (apiFieldErrors w) with
        | Some messages =>
            if (0 <? length messages)%nat then Some (js_index0 messages)
            else None
        | None => None
        end
  end.

(** The error messages written in the schema, each with its field. *)
Definition schema_messages : list (string * string) :=
  [ ("guest_name", "Guest name is required");
    ("room_id", "Please select a room");
    ("check_in_date", "Check-in date is required");
    ("check_out_date", "Check-out date must be after check-in date");
    ("check_out_date", "Check-out date is required");
    ("promo_code",
     "Promo code must be uppercase alphanumeric and between 6-10 characters") ].

(** A promo code the schema lets through: left out, or well-formed. *)
Definition promo_code_ok (p : option string) : Prop :=
  match p with
  | None => True
  | Some s => upper_alnum_6_to_10 s
  end.

(** A complete form without dates and without the promo code key. *)
Definition dateless_form : BookingFormData :=
  {| guest_name := "John Doe";
     room_id := "1";
     check_in_date := None;
     check_out_date := None;
     promo_code := None |}.

(** A rejection with no response at all, as for a network failure. *)
Definition network_error : Axios.Error := {| Axios.response := None |}.

(** The state a structured rejection leaves behind. *)
Definition rejected_world : World :=
  (onSubmit (rejecting validation_failed_error) summer_form initialWorld).2.

(** A zone five hours west of UTC, all year. *)
Definition utc_minus_5 : JsDate.zone := fun _ => -18000000.

(** A server whose availability request fails. *)
Definition unreachable : Service :=
  {| unavailable_dates_reply := fun _ => Rejected network_error;
     booking_reply := fun _ => Rejected network_error |}.

(** * Properties *)

(** ** The regular expression *)

Lemma length_list_ascii_of_string s :
  length (list_ascii_of_string s) = String.length s.
Proof. induction s as [|a s IH]; simpl; [reflexivity | now rewrite IH]. Qed.

Lemma rep_to_end k c lo room taken st s :
  (forall st' s', k st' s' = true <-> s' = []) ->
  Regex.rep k c lo room taken st s = true
  <-> forallb (Regex.in_class c) s = true
      /\ (lo <= taken + length s)%nat /\ (length s <= room)%nat.
Proof.
  intros Hk. revert taken st s.
  induction room as [|room IH]; intros taken st [|x t]; simpl.
  - rewrite andb_true_iff, Nat.leb_le, Hk. intuition lia.
  - rewrite andb_true_iff, Nat.leb_le, Hk. split.
    + intros [_ [=]].
    + intros (_ & _ & ?). lia.
  - rewrite andb_true_iff, Nat.leb_le, Hk. intuition lia.
  - rewrite orb_true_iff, !andb_true_iff, IH, Nat.leb_le, Hk. split.
    + intros [(Hx & Ht & ? & ?) | [_ [=]]]. repeat split; auto; lia.
    + intros ((Hx & Ht) & ? & ?). left. repeat split; auto; lia.
Qed.

Lemma search_from_bol p i s : Regex.search_from (Regex.Bol :: p) false i s = -1.
Proof. revert i. induction s as [|x t IH]; intros i; simpl; auto. Qed.

Lemma search_anchored p s :
  Regex.search s (Regex.Bol :: p) <> -1
  <-> Regex.match_here p true (list_ascii_of_string s) = true.
Proof.
  unfold Regex.search.
  destruct (list_ascii_of_string s) as [|x t]; simpl;
    destruct (Regex.match_here p true _); simpl;
    rewrite ?search_from_bol; split; (congruence || lia || auto).
Qed.

Lemma promo_class x :
  Regex.in_class [("A"%char, "Z"%char); ("0"%char, "9"%char)] x
  = upper_or_digit x.
Proof.
  unfold Regex.in_class, Regex.in_range, upper_or_digit, is_upper, is_digit.
  simpl. now rewrite orb_false_r.
Qed.

Lemma forallb_class_ext (f g : ascii -> bool) l :
  (forall x, f x = g x) -> forallb f l = forallb g l.
Proof.
  intros Hfg. induction l as [|x l IH]; simpl; [reflexivity|].
  now rewrite Hfg, IH.
Qed.

Lemma promo_regex_accepts s :
  Regex.search s promo_regex <> -1 <-> upper_alnum_6_to_10 s.
Proof.
  unfold promo_regex, upper_alnum_6_to_10.
  rewrite search_anchored. cbn [Regex.match_here].
  rewrite rep_to_end, length_list_ascii_of_string.
  - rewrite (forallb_class_ext _ _ _ promo_class). intuition lia.
  - intros _ [|? ?]; split; congruence.
Qed.

(** ** The resolver, field by field *)

Lemma resolver_errors_cons r k s sh o :
  Yup.resolver_errors r ((k, s) :: sh) o
  = match Yup.validate_field r s o (default Undefined (o !! k)) with
    | Some e => <[k := e]> (Yup.resolver_errors r sh o)
    | None => Yup.resolver_errors r sh o
    end.
Proof.
  unfold Yup.resolver_errors. simpl.
  destruct (Yup.validate_field r s o _); reflexivity.
Qed.

Lemma resolver_errors_absent r sh o key :
  key ∉ sh.*1 -> Yup.resolver_errors r sh o !! key = None.
Proof.
  induction sh as [|[k s] sh IH]; intros Hnot.
  - reflexivity.
  - rewrite resolver_errors_cons. simpl in Hnot.
    apply not_elem_of_cons in Hnot as [Hne Hnot].
    destruct (Yup.validate_field r s o _); auto.
    rewrite lookup_insert_ne; auto.
Qed.

Lemma resolver_errors_lookup r sh o key :
  NoDup sh.*1 ->
  Yup.resolver_errors r sh o !! key
  = s ← shape_field key sh;
    Yup.validate_field r s o (default Undefined (o !! key)).
Proof.
  induction sh as [|[k s] sh IH]; intros Hnd.
  - reflexivity.
  - simpl in Hnd. apply NoDup_cons in Hnd as [Hk Hnd].
    rewrite resolver_errors_cons. simpl.
    destruct (String.eqb_spec k key) as [->|Hne]; simpl.
    + destruct (Yup.validate_field r s o _).
      * apply lookup_insert_eq.
      * now apply resolver_errors_absent.
    + destruct (Yup.validate_field r s o _); [rewrite lookup_insert_ne|]; auto.
Qed.

Lemma resolver_errors_empty r sh o :
  NoDup sh.*1 ->
  Yup.resolver_errors r sh o = ∅
  <-> forall key, Yup.resolver_errors r sh o !! key = None.
Proof.
  intros _. split.
  - intros -> key. apply lookup_empty.
  - intros H. apply map_eq. intros key. rewrite H. symmetry. apply lookup_empty.
Qed.

Lemma schema_keys yup :
  (schema yup).*1
  = ["guest_name"; "room_id"; "check_in_date"; "check_out_date"; "promo_code"].
Proof. reflexivity. Qed.

Lemma schema_NoDup yup : NoDup (schema yup).*1.
Proof. rewrite schema_keys. compute_done. Qed.

Lemma form_object_guest_name data :
  form_object data !! "guest_name" = Some (Str (guest_name data)).
Proof. unfold form_object. destruct (promo_code data); reflexivity. Qed.

Lemma form_object_room_id data :
  form_object data !! "room_id" = Some (Str (room_id data)).
Proof. unfold form_object. destruct (promo_code data); reflexivity. Qed.

Lemma form_object_check_in_date data :
  form_object data !! "check_in_date" = Some (date_value (check_in_date data)).
Proof. unfold form_object. destruct (promo_code data); reflexivity. Qed.

Lemma form_object_check_out_date data :
  form_object data !! "check_out_date"
  = Some (date_value (check_out_date data)).
Proof. unfold form_object. destruct (promo_code data); reflexivity. Qed.

Lemma form_object_promo_code data :
  form_object data !! "promo_code" = Str <$> promo_code data.
Proof. unfold form_object. destruct (promo_code data); reflexivity. Qed.

(** Run a field's schema on a value whose shape is known. *)
Ltac yup_eval :=
  cbn -[Yup.validate_field Regex.search Z.eqb Z.leb form_object lookup];
  unfold Yup.validate_field, Yup.field_errors, Yup.run_test, Yup.matches,
    Yup.required, Yup.nullable, Yup.optional, Yup.min_ref, Yup.add_test,
    Yup.initial_tests, Yup.string_, Yup.date, Yup.mixed;
  cbn -[Regex.search Z.eqb Z.leb form_object lookup String.eqb].

Lemma field_error_unfold yup data key :
  field_error yup data key
  = s ← shape_field key (schema yup);
    Yup.validate_field yup s (form_object data)
      (default Undefined (form_object data !! key)).
Proof. apply resolver_errors_lookup, schema_NoDup. Qed.

Lemma promo_code_error yup data :
  field_error yup data "promo_code"
  = match promo_code data with
    | None => None
    | Some s =>
        if Regex.search s promo_regex =? -1 then
          Some {| Yup.error_type := "matches";
                  Yup.error_message :=
                    "Promo code must be uppercase alphanumeric and between 6-10 characters" |}
        else None
    end.
Proof.
  rewrite field_error_unfold, form_object_promo_code.
  destruct yup, (promo_code data) as [s|]; yup_eval; try reflexivity.
  all: destruct (Regex.search s promo_regex =? -1); reflexivity.
Qed.

Lemma guest_name_error yup data :
  field_error yup data "guest_name"
  = if String.eqb (guest_name data) "" then
      Some {| Yup.error_type := "required";
              Yup.error_message := "Guest name is required" |}
    else None.
Proof.
  rewrite field_error_unfold, form_object_guest_name.
  destruct yup; yup_eval;
    destruct (String.eqb (guest_name data) ""); reflexivity.
Qed.

Lemma room_id_error yup data :
  field_error yup data "room_id"
  = if String.eqb (room_id data) "" then
      Some {| Yup.error_type := "required";
              Yup.error_message := "Please select a room" |}
    else None.
Proof.
  rewrite field_error_unfold, form_object_room_id.
  destruct yup; yup_eval;
    destruct (String.eqb (room_id data) ""); reflexivity.
Qed.

Lemma check_in_date_error yup data :
  field_error yup data "check_in_date"
  = match check_in_date data, yup with
    | None, Yup.Yup0 =>
        Some {| Yup.error_type := "required";
                Yup.error_message := "Check-in date is required" |}
    | _, _ => None
    end.
Proof.
  rewrite field_error_unfold, form_object_check_in_date.
  destruct yup, (check_in_date data); reflexivity.
Qed.

Lemma check_out_date_error yup data :
  field_error yup data "check_out_date"
  = match check_out_date data, yup with
    | Some b, _ =>
        if Yup.date_ge (DateV b) (date_value (check_in_date data)) then None
        else Some {| Yup.error_type := "min";
                     Yup.error_message :=
                       "Check-out date must be after check-in date" |}
    | None, Yup.Yup0 =>
        Some {| Yup.error_type := "required";
                Yup.error_message := "Check-out date is required" |}
    | None, Yup.Yup1 => None
    end.
Proof.
  rewrite field_error_unfold, form_object_check_out_date.
  destruct yup, (check_out_date data) as [b|]; yup_eval; try reflexivity.
  all: rewrite form_object_check_in_date; simpl.
  all: destruct (check_in_date data) as [a|]; simpl;
    [destruct (a <=? b) | destruct (0 <=? b)]; reflexivity.
Qed.

(** The resolver reports no error exactly when no field has one. *)
Lemma validate_empty yup data :
  validate yup data = ∅
  <-> field_error yup data "guest_name" = None
      /\ field_error yup data "room_id" = None
      /\ field_error yup data "check_in_date" = None
      /\ field_error yup data "check_out_date" = None
      /\ field_error yup data "promo_code" = None.
Proof.
  unfold field_error. split.
  - intros ->. repeat split; apply lookup_empty.
  - intros (Hg & Hr & Hi & Ho & Hp). apply map_eq. intros key.
    rewrite lookup_empty.
    destruct (decide (key ∈ (schema yup).*1)) as [Hin|Hout].
    + rewrite schema_keys in Hin.
      repeat (apply elem_of_cons in Hin as [->|Hin]; [assumption|]).
      inversion Hin.
    + now apply resolver_errors_absent.
Qed.

(** ** The submit handler *)

(** Step through the binds of a handler. *)
Ltac run_M :=
  unfold mbind, M_bind, mret, M_ret;
  cbn -[forEach report_field_error].

Lemma forEach_report_field_error data apiErrors w :
  forEach (report_field_error data) apiErrors w
  = (Ok tt,
     {| context := context w;
        apiFieldErrors := apiFieldErrors w;
        formErrors := manual_errors data apiErrors (formErrors w);
        requests := requests w |}).
Proof.
  revert w. induction apiErrors as [|[field messages] l IH]; intros w.
  - destruct w; reflexivity.
  - cbn [forEach]. unfold mbind, M_bind, report_field_error.
    destruct (js_in field data && (0 <? length messages)%nat) eqn:E.
    + unfold setFormError, modify. rewrite IH.
      unfold manual_errors. cbn [foldl formErrors context apiFieldErrors requests].
      now rewrite E.
    + unfold mret, M_ret. rewrite IH.
      unfold manual_errors. cbn [foldl]. now rewrite E.
Qed.

Lemma onSubmit_resolved service data w :
  booking_reply service data = Resolved tt ->
  onSubmit service data w
  = (Ok tt,
     {| context :=
          {| rooms := rooms (context w);
             selectedRoom := selectedRoom (context w);
             bookingData := merge (bookingData (context w)) data;
             unavailableDates := unavailableDates (context w);
             isLoading := false;
             error := None;
             success := Some "Booking created successfully!" |};
        apiFieldErrors := [];
        formErrors := formErrors w;
        requests := (requests w ++ [POST "/api/bookings" data])%list |}).
Proof.
  intros Hreply.
  unfold onSubmit, try_catch_finally, createBooking, send.
  rewrite Hreply. reflexivity.
Qed.

Lemma onSubmit_rejected service data w err :
  booking_reply service data = Rejected err ->
  onSubmit service data w
  = (Ok tt,
     {| context :=
          {| rooms := rooms (context w);
             selectedRoom := selectedRoom (context w);
             bookingData := bookingData (context w);
             unavailableDates := unavailableDates (context w);
             isLoading := false;
             error := Some (rejection_message err);
             success := None |};
        apiFieldErrors :=
          default [] (Axios.response_data err ≫= Axios.errors);
        formErrors :=
          manual_errors data
            (default [] (Axios.response_data err ≫= Axios.errors))
            (formErrors w);
        requests := (requests w ++ [POST "/api/bookings" data])%list |}).
Proof.
  intros Hreply.
  unfold onSubmit, try_catch_finally, createBooking, send, rejection_message.
  rewrite Hreply.
  destruct err as [[[[[msg [apiErrors|]]|]]|]]; run_M;
    rewrite ?forEach_report_field_error; reflexivity.
Qed.

Lemma handleSubmit_invalid yup service values w :
  validate yup values <> ∅ ->
  handleSubmit yup service values w
  = (Ok tt,
     {| context := context w;
        apiFieldErrors := apiFieldErrors w;
        formErrors := validate yup values;
        requests := requests w |}).
Proof.
  intros Hne. unfold handleSubmit.
  rewrite bool_decide_eq_false_2 by assumption. reflexivity.
Qed.

Lemma handleSubmit_valid yup service values w :
  validate yup values = ∅ ->
  handleSubmit yup service values w
  = onSubmit service values
      {| context := context w;
         apiFieldErrors := apiFieldErrors w;
         formErrors := ∅;
         requests := requests w |}.
Proof.
  intros He. unfold handleSubmit.
  rewrite bool_decide_eq_true_2 by assumption. rewrite He. reflexivity.
Qed.

(** The handler returns, whatever the server answers. *)
Lemma onSubmit_returns service data w : (onSubmit service data w).1 = Ok tt.
Proof.
  destruct (booking_reply service data) as [[]|err] eqn:E.
  - now rewrite (onSubmit_resolved _ _ _ E).
  - now rewrite (onSubmit_rejected _ _ _ _ E).
Qed.

Lemma onSubmit_requests service data w :
  requests (onSubmit service data w).2
  = (requests w ++ [POST "/api/bookings" data])%list.
Proof.
  destruct (booking_reply service data) as [[]|err] eqn:E.
  - now rewrite (onSubmit_resolved _ _ _ E).
  - now rewrite (onSubmit_rejected _ _ _ _ E).
Qed.

(** ** Field errors reported by the server *)

Lemma manual_errors_cons data field messages l errs :
  manual_errors data ((field, messages) :: l) errs
  = manual_errors data l
      (if js_in field data && (0 <? length messages)%nat then
         <[field := {| Yup.error_type := "manual";
                       Yup.error_message := js_index0 messages |}]> errs
       else errs).
Proof. reflexivity. Qed.

Lemma manual_errors_other data l errs key :
  key ∉ l.*1 -> manual_errors data l errs !! key = errs !! key.
Proof.
  revert errs. induction l as [|[field messages] l IH]; intros errs Hnot.
  - reflexivity.
  - simpl in Hnot. apply not_elem_of_cons in Hnot as [Hne Hnot].
    rewrite manual_errors_cons.
    destruct (js_in field data && _); rewrite IH by assumption.
    + now apply lookup_insert_ne.
    + reflexivity.
Qed.

Lemma manual_errors_lookup data l errs field messages :
  NoDup l.*1 ->
  (field, messages) ∈ l ->
  js_in field data = true ->
  messages <> [] ->
  manual_errors data l errs !! field
  = Some {| Yup.error_type := "manual";
            Yup.error_message := js_index0 messages |}.
Proof.
  intros Hnd Hin Hfield Hmsgs. revert errs Hnd Hin.
  induction l as [|[f ms] l IH]; intros errs Hnd Hin.
  - inversion Hin.
  - simpl in Hnd. apply NoDup_cons in Hnd as [Hf Hnd].
    rewrite manual_errors_cons.
    apply elem_of_cons in Hin as [[= <- <-]|Hin].
    + rewrite Hfield. destruct messages as [|m ms']; [congruence|].
      cbn [length Nat.ltb Nat.leb andb].
      rewrite manual_errors_other by assumption.
      apply lookup_insert_eq.
    + now apply IH.
Qed.

Lemma own_key_in key data : key ∈ own_keys data -> js_in key data = true.
Proof.
  intros Hin. unfold js_in. apply bool_decide_eq_true_2.
  apply elem_of_app. now left.
Qed.

(** ** Calendar fields *)

Lemma calendar_fields_of_day a b :
  JsDate.Day a = JsDate.Day b ->
  JsDate.YearFromTime a = JsDate.YearFromTime b
  /\ JsDate.MonthFromTime a = JsDate.MonthFromTime b
  /\ JsDate.DateFromTime a = JsDate.DateFromTime b.
Proof.
  intros H.
  unfold JsDate.DateFromTime, JsDate.MonthFromTime, JsDate.DayWithinYear,
    JsDate.InLeapYear, JsDate.YearFromTime.
  now rewrite H.
Qed.

(** [YearFromDay] is the year ECMAScript asks for: the one whose first
    day is the last not after [d]. *)
Lemma YearFromDay_spec d :
  JsDate.DayFromYear (JsDate.YearFromDay d) <= d
  < JsDate.DayFromYear (JsDate.YearFromDay d + 1).
Proof.
  unfold JsDate.YearFromDay, JsDate.DayFromYear.
  repeat match goal with
         | |- context [if ?c then _ else _] => destruct c eqn:?
         end;
  rewrite ?Z.ltb_lt, ?Z.ltb_ge, ?Z.leb_le, ?Z.leb_gt in *;
  Z.div_mod_to_equations; lia.
Qed.

Lemma DayFromYear_mono y y' :
  y <= y' -> JsDate.DayFromYear y <= JsDate.DayFromYear y'.
Proof.
  intros Hle. unfold JsDate.DayFromYear. Z.div_mod_to_equations. lia.
Qed.

Lemma YearFromDay_largest d y :
  JsDate.DayFromYear y <= d -> y <= JsDate.YearFromDay d.
Proof.
  intros Hy. destruct (Z_le_gt_dec y (JsDate.YearFromDay d)) as [|Hgt]; auto.
  pose proof (YearFromDay_spec d) as [_ Hlt].
  pose proof (DayFromYear_mono (JsDate.YearFromDay d + 1) y ltac:(lia)).
  lia.
Qed.

(** Two instants are on one day exactly when taking their times of day
    away leaves the same midnight. *)
Lemma same_day_iff_same_midnight a b :
  JsDate.Day a = JsDate.Day b
  <-> a - JsDate.TimeWithinDay a = b - JsDate.TimeWithinDay b.
Proof.
  unfold JsDate.Day, JsDate.TimeWithinDay, JsDate.msPerDay.
  Z.div_mod_to_equations. lia.
Qed.

(** ** The promo code rule *)

(** C1, as the code has it: for every submitted form and release of yup, a
    non-empty promo code passes validation if and only if it is made of
    uppercase letters [A-Z] and digits [0-9] only and its length lies
    between 6 and 10. *)
Theorem promo_code_passes_iff_upper_alnum_6_to_10 yup data s :
  promo_code data = Some s ->
  s <> "" ->
  field_error yup data "promo_code" = None <-> upper_alnum_6_to_10 s.
Proof.
  intros Hs _. rewrite promo_code_error, Hs, <- promo_regex_accepts.
  destruct (Z.eqb_spec (Regex.search s promo_regex) (-1)) as [E|E];
    split; intros H; congruence.
Qed.

Lemma promo_code_passes_witness :
  field_error Yup.Yup1 summer_form "promo_code" = None
  <-> upper_alnum_6_to_10 "SUMMER123".
Proof.
  apply (promo_code_passes_iff_upper_alnum_6_to_10 Yup.Yup1 summer_form).
  - reflexivity.
  - discriminate.
Defined.

(** C1 as worded fails: no single length [n] makes "passes validation"
    the same as "alphanumeric of length [n]", for codes of 6 and of 7
    characters both pass. *)
Lemma promo_code_not_one_fixed_length :
  ~ exists n : nat, forall yup data s,
      promo_code data = Some s -> s <> "" ->
      field_error yup data "promo_code" = None <-> fixed_length_alphanumeric n s.
Proof.
  intros [n H].
  pose (form p := {| guest_name := "Jo"; room_id := "1";
                     check_in_date := None; check_out_date := None;
                     promo_code := Some p |}).
  assert (H6 : fixed_length_alphanumeric n "ABCDEF").
  { apply (H Yup.Yup1 (form "ABCDEF")); [reflexivity | discriminate |].
    vm_compute. reflexivity. }
  assert (H7 : fixed_length_alphanumeric n "ABCDEFG").
  { apply (H Yup.Yup1 (form "ABCDEFG")); [reflexivity | discriminate |].
    vm_compute. reflexivity. }
  destruct H6 as [H6 _], H7 as [H7 _]. simpl in H6, H7. congruence.
Qed.

(** C2, at the form that leaves the promo code as it starts, the empty
    string: under either release of yup the [matches] test rejects it, the
    resolver reports the promo code error, and no request is sent. *)
Theorem empty_promo_code_is_rejected yup service w :
  field_error yup empty_promo_form "promo_code"
  = Some {| Yup.error_type := "matches";
            Yup.error_message :=
              "Promo code must be uppercase alphanumeric and between 6-10 characters" |}
  /\ (forall field, field <> "promo_code" ->
                    field_error yup empty_promo_form field = None)
  /\ requests (handleSubmit yup service empty_promo_form w).2 = requests w.
Proof.
  split; [|split].
  - rewrite promo_code_error. reflexivity.
  - intros field Hne. unfold field_error.
    destruct (decide (field ∈ (schema yup).*1)) as [Hin|Hout].
    + rewrite schema_keys in Hin.
      repeat (apply elem_of_cons in Hin as [->|Hin];
              [first [congruence | destruct yup; vm_compute; reflexivity]|]).
      inversion Hin.
    + now apply resolver_errors_absent.
  - rewrite handleSubmit_invalid; [reflexivity|].
    intros He. apply validate_empty in He as (_ & _ & _ & _ & Hp).
    rewrite promo_code_error in Hp. discriminate.
Qed.

(** A promo code left out of the values altogether passes, and the form is
    posted. *)
Lemma omitted_promo_code_is_accepted yup service data w :
  promo_code data = None ->
  (forall field, field <> "promo_code" -> field_error yup data field = None) ->
  validate yup data = ∅
  /\ requests (handleSubmit yup service data w).2
     = (requests w ++ [POST "/api/bookings" data])%list.
Proof.
  intros Hp Hother.
  assert (He : validate yup data = ∅).
  { apply validate_empty. rewrite promo_code_error, Hp.
    repeat split; try apply Hother; discriminate. }
  split; [assumption|].
  rewrite handleSubmit_valid by assumption. now rewrite onSubmit_requests.
Qed.

(** ** The date rules *)

(** C3: when both dates are present, the check-out date passes validation
    if and only if it is not earlier than the check-in date, and the error
    reported otherwise reads "Check-out date must be after check-in date". *)
Theorem check_out_date_min_check_in yup data a b :
  check_in_date data = Some a ->
  check_out_date data = Some b ->
  (field_error yup data "check_out_date" = None <-> a <= b)
  /\ (forall e, field_error yup data "check_out_date" = Some e ->
                Yup.error_message e
                = "Check-out date must be after check-in date").
Proof.
  intros Ha Hb. rewrite check_out_date_error, Ha, Hb. simpl.
  destruct (Z.leb_spec a b) as [Hle|Hgt].
  - destruct yup; split; try tauto; intros e [=].
  - destruct yup; (split; [split; [discriminate | lia] | now intros e [= <-]]).
Qed.

Lemma check_out_date_min_witness :
  (field_error Yup.Yup1 summer_form "check_out_date" = None
   <-> 1762041600000 <= 1762128000000)
  /\ (forall e, field_error Yup.Yup1 summer_form "check_out_date" = Some e ->
                Yup.error_message e
                = "Check-out date must be after check-in date").
Proof.
  apply (check_out_date_min_check_in Yup.Yup1 summer_form); reflexivity.
Defined.

(** C9: a form whose check-in date lies before today, the check-in picker's
    [minDate], and whose other fields are valid passes the schema: the schema
    has no rule about today. *)
Theorem schema_accepts_past_check_in yup today data a :
  check_in_date data = Some a ->
  a < check_in_minDate today ->
  field_error yup data "guest_name" = None ->
  field_error yup data "room_id" = None ->
  field_error yup data "check_out_date" = None ->
  field_error yup data "promo_code" = None ->
  validate yup data = ∅.
Proof.
  intros Ha _ Hg Hr Ho Hp. apply validate_empty.
  rewrite check_in_date_error, Ha. now destruct yup.
Qed.

Lemma schema_accepts_past_check_in_witness :
  validate Yup.Yup0 past_form = ∅.
Proof.
  apply (schema_accepts_past_check_in Yup.Yup0 1762041600000 past_form
           1577836800000);
    vm_compute; reflexivity.
Defined.

(** ** Submitting *)

(** C5: a submission sends at most one request, the POST of the submitted
    values to [/api/bookings], and sends it exactly when the values pass the
    whole schema; values with any field in error send nothing. *)
Theorem submit_validates_before_post yup service values w :
  exists sent,
    requests (handleSubmit yup service values w).2 = (requests w ++ sent)%list
    /\ (forall url body, POST url body ∈ sent ->
          url = "/api/bookings" /\ body = values /\ validate yup body = ∅)
    /\ (validate yup values <> ∅ -> sent = [])
    /\ (validate yup values = ∅ -> sent = [POST "/api/bookings" values]).
Proof.
  destruct (decide (validate yup values = ∅)) as [He|Hne].
  - exists [POST "/api/bookings" values].
    rewrite handleSubmit_valid, onSubmit_requests by assumption.
    repeat split; try congruence.
    all: apply list_elem_of_singleton in H; congruence.
  - exists []. rewrite handleSubmit_invalid by assumption. simpl.
    rewrite app_nil_r. repeat split; try congruence.
    all: inversion H.
Qed.

(** C10: the submit handler always returns with the loading flag off; when
    the booking is rejected, the context's booking data is what it was and
    the success message is null. *)
Theorem failed_submission_keeps_booking_data service data w :
  (onSubmit service data w).1 = Ok tt
  /\ isLoading (context (onSubmit service data w).2) = false
  /\ (forall err, booking_reply service data = Rejected err ->
         bookingData (context (onSubmit service data w).2)
         = bookingData (context w)
         /\ success (context (onSubmit service data w).2) = None).
Proof.
  split; [apply onSubmit_returns|].
  destruct (booking_reply service data) as [[]|err] eqn:E.
  - rewrite (onSubmit_resolved _ _ _ E). split; [reflexivity | discriminate].
  - rewrite (onSubmit_rejected _ _ _ _ E). split; [reflexivity|].
    intros err' _. split; reflexivity.
Qed.

(** C4, as the code has it: when the booking is rejected with a body that
    has an errors object, every key of it that is a field of the submitted
    values and has a message gets its first message as a manual form error,
    and the general error is the body's message, or "Validation failed" when
    the message is missing or empty. *)
Theorem api_errors_mapped_to_fields service data w err body apiErrors :
  booking_reply service data = Rejected err ->
  Axios.response_data err = Some body ->
  Axios.errors body = Some apiErrors ->
  NoDup apiErrors.*1 ->
  (forall field first rest,
      (field, first :: rest) ∈ apiErrors ->
      field ∈ own_keys data ->
      formErrors (onSubmit service data w).2 !! field
      = Some {| Yup.error_type := "manual"; Yup.error_message := first |})
  /\ (forall m, Axios.message body = Some m -> m <> "" ->
         error (context (onSubmit service data w).2) = Some m)
  /\ (Axios.message body = None \/ Axios.message body = Some "" ->
         error (context (onSubmit service data w).2)
         = Some "Validation failed").
Proof.
  intros Hrej Hbody Herrs Hnd.
  rewrite (onSubmit_rejected _ _ _ _ Hrej). cbn [formErrors context error].
  unfold rejection_message. rewrite Hbody. simpl.
  rewrite Herrs. simpl.
  split; [|split].
  - intros field first rest Hin Hown.
    rewrite (manual_errors_lookup data apiErrors _ field (first :: rest));
      [reflexivity | assumption | assumption | now apply own_key_in
      | discriminate].
  - intros m -> Hm. unfold js_or.
    destruct (String.eqb_spec m ""); congruence.
  - intros [-> | ->]; reflexivity.
Qed.

Lemma api_errors_mapped_witness :
  formErrors
    (onSubmit (rejecting validation_failed_error) summer_form initialWorld).2
    !! "check_in_date"
  = Some {| Yup.error_type := "manual";
            Yup.error_message := "Invalid check-in date" |}.
Proof.
  apply (proj1 (api_errors_mapped_to_fields
                  (rejecting validation_failed_error) summer_form initialWorld
                  validation_failed_error validation_failed_body
                  [("guest_name", ["Guest name is too short"]);
                   ("check_in_date", ["Invalid check-in date"])]
                  eq_refl eq_refl eq_refl ltac:(compute_done)))
    with (rest := []); compute_done.
Defined.

(** C4 as worded fails on an empty message: the body's message is there,
    the empty string, and the general error is "Validation failed". *)
Lemma general_error_of_empty_message :
  let w' := (onSubmit (rejecting empty_message_error) summer_form
               initialWorld).2 in
  error (context w') = Some "Validation failed"
  /\ error (context w')
     <> Some (message_unless_absent (Some "") "Validation failed").
Proof. split; [reflexivity | discriminate]. Qed.

Lemma submit_validates_witness :
  requests (handleSubmit Yup.Yup1 accepting summer_form initialWorld).2
  = [POST "/api/bookings" summer_form]
  /\ requests (handleSubmit Yup.Yup1 accepting initialFormData initialWorld).2
     = [].
Proof.
  split.
  - destruct (submit_validates_before_post Yup.Yup1 accepting summer_form
                initialWorld) as (sent & -> & _ & _ & Hsent).
    rewrite Hsent; [reflexivity | vm_compute; reflexivity].
  - destruct (submit_validates_before_post Yup.Yup1 accepting initialFormData
                initialWorld) as (sent & -> & _ & Hsent & _).
    rewrite Hsent; [reflexivity|].
    intros He. apply (f_equal (fun m => m !! "guest_name")) in He.
    vm_compute in He. discriminate.
Defined.

Lemma failed_submission_witness :
  bookingData
    (context (onSubmit (rejecting validation_failed_error) summer_form
                initialWorld).2)
  = initialFormData.
Proof.
  apply (proj2 (proj2 (failed_submission_keeps_booking_data
                         (rejecting validation_failed_error) summer_form
                         initialWorld)) validation_failed_error).
  reflexivity.
Defined.

(** ** The context *)

(** C8: the context value has seven state entries, the rooms, the selected
    room, the booking data, the unavailable dates, the loading flag, the
    error and the success message, and a context state is exactly a value
    for each of the seven. *)
Theorem context_holds_seven_state_cells :
  state_keys
  = ["rooms"; "selectedRoom"; "bookingData"; "unavailableDates";
     "isLoading"; "error"; "success"]
  /\ length state_keys = 7%nat
  /\ (forall s, state_of_tuple (state_tuple s) = s)
  /\ (forall t, state_tuple (state_of_tuple t) = t).
Proof.
  repeat split.
  - now intros [].
  - now intros [[[[[[r sr] bd] ud] l] e] su].
Qed.

(** ** Availability *)



(** A fetch that fails stores nothing and selects nothing: it sets the
    error. *)
Lemma fetch_rejected service r rooms0 w err :
  r <> "" ->
  unavailable_dates_reply service r = Rejected err ->
  context (fetchUnavailableDates_effect service r rooms0 w).2
  = {| rooms := rooms (context w);
       selectedRoom := selectedRoom (context w);
       bookingData := bookingData (context w);
       unavailableDates := unavailableDates (context w);
       isLoading := false;
       error := Some "Failed to load availability. Please try again.";
       success := success (context w) |}.
Proof.
  intros Hr Hreply. unfold fetchUnavailableDates_effect, js_not.
  rewrite (proj2 (String.eqb_neq r "")) by assumption.
  unfold try_catch_finally, getUnavailableDates, send.
  rewrite Hreply. reflexivity.
Qed.



(** C6: a date is unavailable exactly when a stored date has its year,
    month and day of the month; and the answer is the same for any two
    dates on one local calendar day, asked about or stored, whatever their
    times of day. *)
Theorem isDateUnavailable_by_calendar_date tza dates d :
  (isDateUnavailable tza dates d = true
   <-> exists u, u ∈ dates
              /\ JsDate.getFullYear tza u = JsDate.getFullYear tza d
              /\ JsDate.getMonth tza u = JsDate.getMonth tza d
              /\ JsDate.getDate tza u = JsDate.getDate tza d)
  /\ (forall d',
         JsDate.Day (JsDate.LocalTime tza d')
         = JsDate.Day (JsDate.LocalTime tza d) ->
         isDateUnavailable tza dates d' = isDateUnavailable tza dates d)
  /\ (forall dates',
         Forall2 (fun u u' => JsDate.Day (JsDate.LocalTime tza u')
                              = JsDate.Day (JsDate.LocalTime tza u))
                 dates dates' ->
         isDateUnavailable tza dates' d = isDateUnavailable tza dates d).
Proof.
  split; [|split].
  - unfold isDateUnavailable. rewrite existsb_exists. split.
    + intros (u & Hin & H). apply list_elem_of_In in Hin.
      rewrite !andb_true_iff, !Z.eqb_eq in H. exists u. tauto.
    + intros (u & Hin & Hy & Hm & Hd). exists u.
      apply list_elem_of_In in Hin.
      rewrite !andb_true_iff, !Z.eqb_eq. tauto.
  - intros d' Hday. unfold isDateUnavailable, JsDate.getFullYear,
      JsDate.getMonth, JsDate.getDate.
    destruct (calendar_fields_of_day _ _ Hday) as (-> & -> & ->).
    reflexivity.
  - intros dates' Hall. induction Hall as [|u u' l l' Hday Hall IH].
    + reflexivity.
    + unfold isDateUnavailable in *. cbn [existsb]. rewrite IH.
      unfold JsDate.getFullYear, JsDate.getMonth, JsDate.getDate.
      destruct (calendar_fields_of_day _ _ Hday) as (-> & -> & ->).
      reflexivity.
Qed.

Lemma isDateUnavailable_witness :
  isDateUnavailable JsDate.utc [1762214400000] 1762300799999 = true.
Proof.
  rewrite (proj1 (proj2 (isDateUnavailable_by_calendar_date JsDate.utc
                           [1762214400000] 1762214400000))
             1762300799999 eq_refl).
  reflexivity.
Defined.


(** ** What the schema accepts and what it reports *)

(** X1: with both dates present, a form passes the whole schema exactly
    when the guest name and the room are not empty, the check-out date is
    not before the check-in date, and the promo code is left out or is 6 to
    10 uppercase letters and digits. *)
Theorem schema_accepts_iff yup data a b :
  check_in_date data = Some a ->
  check_out_date data = Some b ->
  validate yup data = ∅
  <-> guest_name data <> "" /\ room_id data <> "" /\ a <= b
      /\ promo_code_ok (promo_code data).
Proof.
  intros Ha Hb. rewrite validate_empty.
  rewrite guest_name_error, room_id_error, check_in_date_error,
    check_out_date_error, promo_code_error, Ha, Hb.
  cbn [date_value Yup.date_ge]. unfold promo_code_ok.
  destruct (String.eqb_spec (guest_name data) "") as [Hg|Hg],
    (String.eqb_spec (room_id data) "") as [Hr|Hr],
    (Z.leb_spec a b) as [Hab|Hab].
  all: try (split; [intros (? & ? & ? & ? & ?); discriminate
                   | intros (? & ? & ? & ?); (congruence || lia)]).
  destruct (promo_code data) as [s|].
  - rewrite <- promo_regex_accepts.
    destruct (Z.eqb_spec (Regex.search s promo_regex) (-1)) as [E|E].
    + split; [intros (_ & _ & _ & _ & [=]) | intros (_ & _ & _ & ?); tauto].
    + split; [tauto | intros _; now destruct yup].
  - split; [tauto | intros _; now destruct yup].
Qed.

Lemma schema_accepts_iff_witness :
  validate Yup.Yup0 summer_form = ∅
  <-> "John Doe" <> "" /\ "1" <> "" /\ 1762041600000 <= 1762128000000
      /\ promo_code_ok (Some "SUMMER123").
Proof.
  apply (schema_accepts_iff Yup.Yup0 summer_form); reflexivity.
Defined.

(** X2: every error the resolver reports is on one of the schema's five
    fields and carries one of the messages written for that field. *)
Theorem validation_errors_come_from_schema yup data field e :
  field_error yup data field = Some e ->
  (field, Yup.error_message e) ∈ schema_messages.
Proof.
  intros He.
  destruct (decide (field ∈ (schema yup).*1)) as [Hin|Hout].
  - rewrite schema_keys in Hin.
    repeat (apply elem_of_cons in Hin as [->|Hin]; [|]); [..|inversion Hin].
    + rewrite guest_name_error in He.
      destruct (String.eqb _ _); inversion He. compute_done.
    + rewrite room_id_error in He.
      destruct (String.eqb _ _); inversion He. compute_done.
    + rewrite check_in_date_error in He.
      destruct (check_in_date data), yup; inversion He. compute_done.
    + rewrite check_out_date_error in He.
      destruct (check_out_date data), yup;
        try destruct (Yup.date_ge _ _); inversion He; compute_done.
    + rewrite promo_code_error in He.
      destruct (promo_code data); [destruct (_ =? _)|]; inversion He.
      compute_done.
  - unfold field_error, validate in He.
    rewrite resolver_errors_absent in He by assumption. discriminate.
Qed.

Lemma validation_errors_witness :
  ("promo_code",
   "Promo code must be uppercase alphanumeric and between 6-10 characters")
  ∈ schema_messages.
Proof.
  apply (validation_errors_come_from_schema Yup.Yup1 empty_promo_form
           "promo_code"
           {| Yup.error_type := "matches";
              Yup.error_message :=
                "Promo code must be uppercase alphanumeric and between 6-10 characters" |}).
  vm_compute. reflexivity.
Defined.

(** X3: a form whose two dates are [null] is refused by yup 0.x, which
    reports both as required; under yup 1.x the [nullable()] written after
    [required(..)] lets [null] through, and the form passes as soon as its
    guest name, room and promo code do. *)
Theorem null_dates_by_release data :
  check_in_date data = None ->
  check_out_date data = None ->
  (field_error Yup.Yup0 data "check_in_date"
   = Some {| Yup.error_type := "required";
             Yup.error_message := "Check-in date is required" |}
   /\ field_error Yup.Yup0 data "check_out_date"
      = Some {| Yup.error_type := "required";
                Yup.error_message := "Check-out date is required" |}
   /\ validate Yup.Yup0 data <> ∅)
  /\ (validate Yup.Yup1 data = ∅
      <-> guest_name data <> "" /\ room_id data <> ""
          /\ promo_code_ok (promo_code data)).
Proof.
  intros Hi Ho. split; [split; [|split]|].
  - now rewrite check_in_date_error, Hi.
  - now rewrite check_out_date_error, Ho.
  - intros He. apply validate_empty in He as (_ & _ & He & _).
    rewrite check_in_date_error, Hi in He. discriminate.
  - rewrite validate_empty.
    rewrite guest_name_error, room_id_error, check_in_date_error,
      check_out_date_error, promo_code_error, Hi, Ho.
    unfold promo_code_ok.
    destruct (String.eqb_spec (guest_name data) "") as [Hg|Hg],
      (String.eqb_spec (room_id data) "") as [Hr|Hr].
    all: try (split; [intros (? & ? & ? & ? & ?); discriminate
                     | intros (? & ? & ?); congruence]).
    destruct (promo_code data) as [s|]; [|tauto].
    rewrite <- promo_regex_accepts.
    destruct (Z.eqb_spec (Regex.search s promo_regex) (-1)) as [E|E].
    + split; [intros (_ & _ & _ & _ & [=]) | intros (_ & _ & ?); tauto].
    + tauto.
Qed.

Lemma null_dates_witness :
  validate Yup.Yup0 dateless_form <> ∅
  /\ validate Yup.Yup1 dateless_form = ∅.
Proof.
  destruct (null_dates_by_release dateless_form eq_refl eq_refl)
    as [(_ & _ & H0) H1].
  split; [exact H0|]. apply H1. repeat split; discriminate.
Defined.

(** ** After a submission *)

Lemma api_lookup_elem key messages errs :
  NoDup errs.*1 -> (key, messages) ∈ errs ->
  api_lookup key errs = Some messages.
Proof.
  induction errs as [|[k ms] errs IH]; intros Hnd Hin.
  - inversion Hin.
  - simpl in Hnd. apply NoDup_cons in Hnd as [Hk Hnd]. simpl.
    apply elem_of_cons in Hin as [[= <- <-]|Hin].
    + now rewrite String.eqb_refl.
    + destruct (String.eqb_spec k key) as [->|Hne]; [|now apply IH].
      exfalso. apply Hk. apply list_elem_of_fmap. now exists (key, messages).
Qed.

(** An entry that fails the callback's test leaves its key alone. *)
Lemma manual_errors_frame data l errs key :
  (forall messages, (key, messages) ∈ l ->
                    js_in key data && (0 <? length messages)%nat = false) ->
  manual_errors data l errs !! key = errs !! key.
Proof.
  revert errs. induction l as [|[f ms] l IH]; intros errs Hskip.
  - reflexivity.
  - rewrite manual_errors_cons, IH.
    + destruct (js_in f data && _) eqn:E; [|reflexivity].
      apply lookup_insert_ne. intros ->.
      rewrite Hskip in E by apply list_elem_of_here. discriminate.
    + intros messages Hin. apply Hskip. now apply list_elem_of_further.
Qed.

Lemma getFieldErrorMessage_clean w field :
  formErrors w = ∅ -> apiFieldErrors w = [] ->
  getFieldErrorMessage w field = None.
Proof.
  intros Hf Ha. unfold getFieldErrorMessage. rewrite Hf, Ha, lookup_empty.
  now destruct (bool_decide _).
Qed.

(** X4: a form that passes the schema and that the server accepts ends in
    the success state: the success message is set, the error is null, the
    loading flag is off, the submitted values are merged into the booking
    data (and are the booking data when they carry a promo code), no field
    shows an error, and the rooms, the selected room and the unavailable
    dates are untouched. *)
Theorem accepted_submission_succeeds yup service values w :
  validate yup values = ∅ ->
  booking_reply service values = Resolved tt ->
  let w' := (handleSubmit yup service values w).2 in
  success (context w') = Some "Booking created successfully!"
  /\ error (context w') = None
  /\ isLoading (context w') = false
  /\ bookingData (context w') = merge (bookingData (context w)) values
  /\ (is_Some (promo_code values) -> bookingData (context w') = values)
  /\ (forall field, getFieldErrorMessage w' field = None)
  /\ rooms (context w') = rooms (context w)
  /\ selectedRoom (context w') = selectedRoom (context w)
  /\ unavailableDates (context w') = unavailableDates (context w).
Proof.
  intros He Hok. cbn zeta.
  rewrite handleSubmit_valid by assumption.
  rewrite (onSubmit_resolved _ _ _ Hok). cbn.
  repeat split.
  - intros [p Hp]. unfold merge. rewrite Hp. destruct values; simpl in *.
    now subst.
  - intros field. now apply getFieldErrorMessage_clean.
Qed.

Lemma accepted_submission_witness :
  bookingData
    (context (handleSubmit Yup.Yup1 accepting summer_form rejected_world).2)
  = summer_form.
Proof.
  destruct (accepted_submission_succeeds Yup.Yup1 accepting summer_form
              rejected_world ltac:(vm_compute; reflexivity) eq_refl)
    as (_ & _ & _ & _ & Hdata & _).
  apply Hdata. now exists "SUMMER123".
Defined.

(** X5: a rejection without an errors object (no response, no body, or a
    body without errors) sets the general error to the body's message, or
    to "Failed to create booking. Please try again." when there is none or
    it is empty; it leaves the server's field errors empty and the form's
    errors as they were. *)
Theorem unstructured_rejection_sets_general_error service data w err :
  booking_reply service data = Rejected err ->
  Axios.response_data err ≫= Axios.errors = None ->
  let w' := (onSubmit service data w).2 in
  let message := Axios.response_data err ≫= Axios.message in
  (forall m, message = Some m -> m <> "" -> error (context w') = Some m)
  /\ (message = None \/ message = Some "" ->
      error (context w')
      = Some "Failed to create booking. Please try again.")
  /\ apiFieldErrors w' = []
  /\ formErrors w' = formErrors w.
Proof.
  intros Hrej Hnone. cbn zeta.
  rewrite (onSubmit_rejected _ _ _ _ Hrej).
  cbn [snd context error apiFieldErrors formErrors].
  unfold rejection_message. rewrite Hnone. cbn [default manual_errors foldl].
  repeat split.
  - intros m -> Hm. unfold js_or. destruct (String.eqb_spec m ""); congruence.
  - intros [-> | ->]; reflexivity.
Qed.

Lemma unstructured_rejection_witness :
  error (context (onSubmit (rejecting network_error) summer_form
                    initialWorld).2)
  = Some "Failed to create booking. Please try again.".
Proof.
  apply (proj1 (proj2 (unstructured_rejection_sets_general_error
                         (rejecting network_error) summer_form initialWorld
                         network_error eq_refl eq_refl))).
  now left.
Defined.

(** X6: in a structured rejection, a key of the errors object that is not
    a property of the submitted values, or whose message list is empty,
    never becomes a form error, and neither does any key the object does
    not have: the form's error for it stays what it was. *)
Theorem unknown_fields_get_no_form_error service data w err apiErrors key :
  booking_reply service data = Rejected err ->
  Axios.response_data err ≫= Axios.errors = Some apiErrors ->
  (forall messages, (key, messages) ∈ apiErrors ->
                    js_in key data = false \/ messages = []) ->
  formErrors (onSubmit service data w).2 !! key = formErrors w !! key
  /\ apiFieldErrors (onSubmit service data w).2 = apiErrors.
Proof.
  intros Hrej Herrs Hskip.
  rewrite (onSubmit_rejected _ _ _ _ Hrej).
  cbn [snd formErrors apiFieldErrors]. rewrite Herrs. cbn [default].
  split; [|reflexivity].
  apply manual_errors_frame. intros messages Hin.
  destruct (Hskip messages Hin) as [-> | ->]; [reflexivity|].
  apply andb_false_r.
Qed.

Lemma unknown_fields_witness :
  formErrors
    (onSubmit (rejecting validation_failed_error) summer_form initialWorld).2
    !! "email"
  = None.
Proof.
  apply (proj1 (unknown_fields_get_no_form_error
                  (rejecting validation_failed_error) summer_form initialWorld
                  validation_failed_error
                  [("guest_name", ["Guest name is too short"]);
                   ("check_in_date", ["Invalid check-in date"])]
                  "email" eq_refl eq_refl
                  ltac:(intros messages Hin; now left))).
Defined.

(** X7: after a valid form is rejected with an errors object, every field
    named there with at least one message, and whose name is not one that
    every object inherits from [Object.prototype], shows the first of its
    messages, whether or not the field is among the submitted values. *)
Theorem server_field_errors_are_shown yup service values w err apiErrors
  field first rest :
  validate yup values = ∅ ->
  booking_reply service values = Rejected err ->
  Axios.response_data err ≫= Axios.errors = Some apiErrors ->
  NoDup apiErrors.*1 ->
  (field, first :: rest) ∈ apiErrors ->
  field ∉ object_prototype_keys ->
  getFieldErrorMessage (handleSubmit yup service values w).2 field
  = Some first.
Proof.
  intros He Hrej Herrs Hnd Hin Hproto.
  rewrite handleSubmit_valid by assumption.
  rewrite (onSubmit_rejected _ _ _ _ Hrej). unfold getFieldErrorMessage.
  cbn [snd formErrors apiFieldErrors]. rewrite Herrs.
  cbn [default Datatypes.id].
  destruct (js_in field values) eqn:Ein.
  - now rewrite (manual_errors_lookup values apiErrors ∅ field (first :: rest))
      by (assumption || discriminate).
  - rewrite manual_errors_frame, lookup_empty.
    + rewrite bool_decide_eq_false_2 by assumption.
      now rewrite (api_lookup_elem _ _ _ Hnd Hin).
    + intros messages _. now rewrite Ein.
Qed.

Lemma server_field_errors_witness :
  getFieldErrorMessage
    (handleSubmit Yup.Yup1 (rejecting validation_failed_error) summer_form
       initialWorld).2 "guest_name"
  = Some "Guest name is too short".
Proof.
  apply (server_field_errors_are_shown Yup.Yup1
           (rejecting validation_failed_error) summer_form initialWorld
           validation_failed_error
           [("guest_name", ["Guest name is too short"]);
            ("check_in_date", ["Invalid check-in date"])]
           "guest_name" "Guest name is too short" []);
    first [reflexivity | compute_done].
Defined.

(** X8: a submission that fails the schema touches nothing but the form's
    errors.  The server's field errors of an earlier rejection stay, so a
    field they name, whose name is not one that every object inherits from
    [Object.prototype], shows the schema's message when it has one and the
    old server message otherwise. *)
Theorem invalid_resubmission_keeps_server_errors yup service values w
  field first rest :
  validate yup values <> ∅ ->
  NoDup (apiFieldErrors w).*1 ->
  (field, first :: rest) ∈ apiFieldErrors w ->
  field ∉ object_prototype_keys ->
  let w' := (handleSubmit yup service values w).2 in
  context w' = context w
  /\ apiFieldErrors w' = apiFieldErrors w
  /\ getFieldErrorMessage w' field
     = Some (from_option Yup.error_message first
               (field_error yup values field)).
Proof.
  intros Hne Hnd Hin Hproto. cbn zeta.
  rewrite handleSubmit_invalid by assumption.
  cbn [snd context apiFieldErrors]. repeat split.
  unfold getFieldErrorMessage, field_error. cbn [formErrors apiFieldErrors].
  destruct (validate yup values !! field) as [e|]; [reflexivity|].
  rewrite bool_decide_eq_false_2 by assumption.
  now rewrite (api_lookup_elem _ _ _ Hnd Hin).
Qed.

Lemma invalid_resubmission_witness :
  getFieldErrorMessage
    (handleSubmit Yup.Yup1 accepting empty_promo_form rejected_world).2
    "guest_name"
  = Some "Guest name is too short".
Proof.
  apply (proj2 (proj2 (invalid_resubmission_keeps_server_errors Yup.Yup1
                         accepting empty_promo_form rejected_world
                         "guest_name" "Guest name is too short" []
                         ltac:(intros He;
                               apply (f_equal (fun m => m !! "promo_code"))
                                 in He; vm_compute in He; discriminate)
                         ltac:(compute_done) ltac:(compute_done)
                         ltac:(compute_done)))).
Defined.

(** ** Loading the rooms and the availability *)


(** X11: when the availability request fails, the unavailable dates and
    the selected room stay those of the room shown before; the error is set
    and the loading flag is off. *)
Theorem failed_fetch_keeps_previous_availability service r rooms0 w err :
  r <> "" ->
  unavailable_dates_reply service r = Rejected err ->
  let w' := (fetchUnavailableDates_effect service r rooms0 w).2 in
  unavailableDates (context w') = unavailableDates (context w)
  /\ selectedRoom (context w') = selectedRoom (context w)
  /\ error (context w')
     = Some "Failed to load availability. Please try again."
  /\ isLoading (context w') = false.
Proof.
  intros Hr Hrej. cbn zeta.
  rewrite (fetch_rejected _ _ _ _ _ Hr Hrej). repeat split.
Qed.

Lemma failed_fetch_witness :
  error (context (fetchUnavailableDates_effect unreachable "2"
                    [standard_room; deluxe_room] initialWorld).2)
  = Some "Failed to load availability. Please try again.".
Proof.
  apply (failed_fetch_keeps_previous_availability unreachable "2"
           [standard_room; deluxe_room] initialWorld network_error);
    [discriminate | reflexivity].
Defined.

(** ** Dates on one local day *)

Lemma DayWithinYear_of_month_and_date a b :
  JsDate.InLeapYear a = JsDate.InLeapYear b ->
  JsDate.MonthFromTime a = JsDate.MonthFromTime b ->
  JsDate.DateFromTime a = JsDate.DateFromTime b ->
  JsDate.DayWithinYear a = JsDate.DayWithinYear b.
Proof.
  unfold JsDate.DateFromTime, JsDate.MonthFromTime.
  generalize (JsDate.DayWithinYear a) (JsDate.DayWithinYear b)
    (JsDate.InLeapYear a) (JsDate.InLeapYear b).
  intros da db la lb ->. cbv zeta.
  repeat match goal with
         | |- context [if ?c then _ else _] => destruct c
         end;
    intros Hm Hd; try discriminate Hm; cbn in Hd; lia.
Qed.

(** The three calendar fields name the day: two instants agree on them
    exactly when they fall on one day. *)
Lemma calendar_fields_iff_day a b :
  JsDate.YearFromTime a = JsDate.YearFromTime b
  /\ JsDate.MonthFromTime a = JsDate.MonthFromTime b
  /\ JsDate.DateFromTime a = JsDate.DateFromTime b
  <-> JsDate.Day a = JsDate.Day b.
Proof.
  split; [|apply calendar_fields_of_day].
  intros (Hy & Hm & Hd).
  assert (Hl : JsDate.InLeapYear a = JsDate.InLeapYear b)
    by (unfold JsDate.InLeapYear; now rewrite Hy).
  pose proof (DayWithinYear_of_month_and_date a b Hl Hm Hd) as Hw.
  unfold JsDate.DayWithinYear in Hw. rewrite Hy in Hw. lia.
Qed.

Lemma isDateUnavailable_same_day tza dates d :
  isDateUnavailable tza dates d = true
  <-> exists u, u ∈ dates
             /\ JsDate.Day (JsDate.LocalTime tza u)
                = JsDate.Day (JsDate.LocalTime tza d).
Proof.
  unfold isDateUnavailable. rewrite existsb_exists.
  split; intros (u & Hin & H); exists u; apply list_elem_of_In in Hin;
    (split; [assumption|]).
  - rewrite !andb_true_iff, !Z.eqb_eq in H.
    apply calendar_fields_iff_day. unfold JsDate.getFullYear,
      JsDate.getMonth, JsDate.getDate in H. tauto.
  - apply calendar_fields_iff_day in H as (Hy & Hm & Hd).
    rewrite !andb_true_iff, !Z.eqb_eq.
    unfold JsDate.getFullYear, JsDate.getMonth, JsDate.getDate. tauto.
Qed.

(** X12: a date is unavailable exactly when a stored date falls on its
    local day: year, month and day of the month together name the day, so
    the test neither misses a date on that day nor matches one on another. *)
Theorem isDateUnavailable_iff_same_local_day tza dates d :
  isDateUnavailable tza dates d = true
  <-> exists u, u ∈ dates
             /\ JsDate.Day (JsDate.LocalTime tza u)
                = JsDate.Day (JsDate.LocalTime tza d).
Proof. apply isDateUnavailable_same_day. Qed.

(** X13: a stored date that is midnight UTC of day [n] blocks local day
    [n] where local time is at or ahead of UTC, and local day [n - 1] where
    it is behind. *)
Theorem utc_midnight_by_zone tza n d :
  (0 <= tza (n * JsDate.msPerDay) < JsDate.msPerDay ->
   isDateUnavailable tza [n * JsDate.msPerDay] d = true
   <-> JsDate.Day (JsDate.LocalTime tza d) = n)
  /\ (- JsDate.msPerDay <= tza (n * JsDate.msPerDay) < 0 ->
      isDateUnavailable tza [n * JsDate.msPerDay] d = true
      <-> JsDate.Day (JsDate.LocalTime tza d) = n - 1).
Proof.
  split; intros Hz; rewrite isDateUnavailable_same_day.
  - assert (Hday : JsDate.Day (JsDate.LocalTime tza (n * JsDate.msPerDay)) = n).
    { unfold JsDate.Day, JsDate.LocalTime, JsDate.msPerDay in *.
      Z.div_mod_to_equations. lia. }
    split.
    + intros (u & Hin & Hu). apply list_elem_of_singleton in Hin as ->.
      congruence.
    + intros Hd. exists (n * JsDate.msPerDay).
      split; [apply list_elem_of_singleton; reflexivity | congruence].
  - assert (Hday : JsDate.Day (JsDate.LocalTime tza (n * JsDate.msPerDay))
                   = n - 1).
    { unfold JsDate.Day, JsDate.LocalTime, JsDate.msPerDay in *.
      Z.div_mod_to_equations. lia. }
    split.
    + intros (u & Hin & Hu). apply list_elem_of_singleton in Hin as ->.
      congruence.
    + intros Hd. exists (n * JsDate.msPerDay).
      split; [apply list_elem_of_singleton; reflexivity | congruence].
Qed.

Lemma utc_midnight_witness :
  isDateUnavailable utc_minus_5 [20396 * JsDate.msPerDay] 1762189200000
  = true.
Proof.
  apply (proj2 (utc_midnight_by_zone utc_minus_5 20396 1762189200000)).
  - unfold utc_minus_5, JsDate.msPerDay. lia.
  - reflexivity.
Defined.

(** X14: the unavailable dates act as a set: the answer for a list put
    together from two is the disjunction of the two answers, and two lists
    with the same elements, in any order and number, give the same answer. *)
Theorem isDateUnavailable_set_like tza l l' d :
  isDateUnavailable tza (l ++ l') d
  = isDateUnavailable tza l d || isDateUnavailable tza l' d
  /\ ((forall u, u ∈ l <-> u ∈ l') ->
      isDateUnavailable tza l d = isDateUnavailable tza l' d).
Proof.
  split.
  - unfold isDateUnavailable. apply existsb_app.
  - intros Hsame. apply eq_true_iff_eq.
    rewrite !isDateUnavailable_same_day.
    split; intros (u & Hin & Hu); exists u; (split; [now apply Hsame|assumption]).
Qed.

Lemma isDateUnavailable_set_like_witness :
  isDateUnavailable JsDate.utc [1762214400000; 0; 1762214400000] 1762214400000
  = isDateUnavailable JsDate.utc [0; 1762214400000] 1762214400000.
Proof.
  apply (proj2 (isDateUnavailable_set_like JsDate.utc
                  [1762214400000; 0; 1762214400000] [0; 1762214400000]
                  1762214400000)).
  intros u. rewrite !elem_of_cons. rewrite !elem_of_nil. tauto.
Defined.
